(** * Video Transcriber CDK application: naming, environment profiles, stack

    A shallow embedding of the TypeScript sources of the CDK application
    ([cdk/lib/utils/constants.ts], [cdk/lib/utils/naming.ts],
    [cdk/lib/config/environment-config.ts], [cdk/lib/video-transcriber-stack.ts]
    and [cdk/bin/video-transcriber.ts]) and the properties of them that
    the specification states.

    Strings are Rocq strings: sequences of characters, a character being a
    JavaScript code unit below 256.  A template literal [`${a}-${b}`] is the
    concatenation [a +:+ "-" +:+ b]. *)

From Stdlib Require Import ZArith Ascii String List Lia.
From stdpp Require Import base option list strings gmap.

Local Open Scope string_scope.

(** ** JavaScript values and calls *)

Module Js.

(** A call either returns a value or throws an [Error] with a message. *)
Inductive completion (A : Type) : Type :=
| Normal (value : A)
| Throw (message : string).
Global Arguments Normal {A} value.
Global Arguments Throw {A} message.

Definition returns {A} (c : completion A) : Prop := ∃ v, c = Normal v.
Definition throws {A} (c : completion A) : Prop := ∃ m, c = Throw m.

Definition bind {A B} (c : completion A) (k : A → completion B) : completion B :=
  match c with
  | Normal v => k v
  | Throw m => Throw m
  end.

(** [String.prototype.toLowerCase] on code units below 256: the letters
    A-Z and the Latin-1 capitals U+00C0-U+00DE (U+00D7, the multiplication
    sign, excepted) move up by 32; every other unit is kept. *)
Definition lowerChar (c : ascii) : ascii :=
  let n := N_of_ascii c in
  if ((65 <=? n) && (n <=? 90)
      || (192 <=? n) && (n <=? 222) && negb (n =? 215))%N
  then ascii_of_N (n + 32) else c.

Fixpoint toLowerCase (s : string) : string :=
  match s with
  | EmptyString => EmptyString
  | String c rest => String (lowerChar c) (toLowerCase rest)
  end.

(** The properties every ordinary object inherits from [Object.prototype]
    (ECMAScript, including the Annex B accessors).  Each is a function,
    or for [__proto__] the prototype object itself: all are truthy. *)
Definition objectPrototypeKeys : list string :=
  [ "constructor"; "__defineGetter__"; "__defineSetter__"; "hasOwnProperty";
    "__lookupGetter__"; "__lookupSetter__"; "isPrototypeOf";
    "propertyIsEnumerable"; "toString"; "valueOf"; "__proto__";
    "toLocaleString" ].

(** What reading [obj[key]] on an object literal yields: one of the
    literal's own values, a member inherited from [Object.prototype], or
    [undefined]. *)
Inductive property (V : Type) : Type :=
| Own (v : V)
| Inherited (member : string)
| Undefined.
Global Arguments Own {V} v.
Global Arguments Inherited {V} member.
Global Arguments Undefined {V}.

(** An object literal is its own properties in insertion order, under
    distinct keys. *)
Definition object (V : Type) : Type := list (string * V).

Fixpoint getOwn {V} (o : object V) (key : string) : option V :=
  match o with
  | [] => None
  | (k, v) :: rest => if String.eqb k key then Some v else getOwn rest key
  end.

(** [obj[key]]: own properties first, then the prototype chain. *)
Definition get {V} (o : object V) (key : string) : property V :=
  match getOwn o key with
  | Some v => Own v
  | None =>
      if existsb (String.eqb key) objectPrototypeKeys
      then Inherited key else Undefined
  end.

(** [key in obj]: own or inherited. *)
Definition has {V} (o : object V) (key : string) : bool :=
  match getOwn o key with
  | Some _ => true
  | None => existsb (String.eqb key) objectPrototypeKeys
  end.

(** [Object.keys(obj)]: the own enumerable keys, in insertion order. *)
Definition keys {V} (o : object V) : list string := map fst o.

(** [Array.prototype.join]. *)
Definition join (sep : string) (l : list string) : string := String.concat sep l.

End Js.

(** ** cdk/lib/utils/constants.ts *)

Module Constants.

Definition RESOURCE_PREFIX : string := "prod-aws-captions".

(** [keyof typeof TABLE_NAMES]: the keys VIDEO, CAPTION and CONFIG, written
    with [_TABLE] to tell VIDEO from the bucket key of the same name. *)
Inductive TableType := VIDEO_TABLE | CAPTION_TABLE | CONFIG_TABLE.

Definition TABLE_NAMES (tableType : TableType) : string :=
  match tableType with
  | VIDEO_TABLE => "VideoDynamoDBTable"
  | CAPTION_TABLE => "CaptionDynamoDBTable"
  | CONFIG_TABLE => "ConfigDynamoDBTable"
  end.

(** [keyof typeof BUCKET_SUFFIXES]. *)
Inductive BucketType := VIDEO | AUDIO | TRANSCRIBE | PUBLIC.

Definition BUCKET_SUFFIXES (bucketType : BucketType) : string :=
  match bucketType with
  | VIDEO => "video"
  | AUDIO => "audio"
  | TRANSCRIBE => "transcribe"
  | PUBLIC => "public"
  end.

End Constants.

(** ** cdk/lib/utils/naming.ts *)

Module Naming.
Import Constants.

Definition getLambdaFunctionName (functionName : string) : string :=
  RESOURCE_PREFIX +:+ "-" +:+ functionName.

Definition getLambdaLogGroupName (functionName : string) : string :=
  "/aws/lambda/" +:+ getLambdaFunctionName functionName.

Definition getS3BucketName (accountId region : string) (bucketType : BucketType) : string :=
  RESOURCE_PREFIX +:+ "-" +:+ accountId +:+ "-" +:+ region +:+ "-"
    +:+ BUCKET_SUFFIXES bucketType.

Definition getDynamoDBTableName (environment : string) (tableType : TableType) : string :=
  RESOURCE_PREFIX +:+ "-" +:+ environment +:+ "-" +:+ TABLE_NAMES tableType.

Definition getIAMRoleName (roleName : string) : string :=
  RESOURCE_PREFIX +:+ "-" +:+ roleName.

Definition getAPIGatewayName (environment : string) : string :=
  RESOURCE_PREFIX +:+ "-" +:+ environment +:+ "-api".

Definition getCloudFrontDescription (environment : string) : string :=
  "Video Transcriber CDN - " +:+ environment.

(** [{ Application: ..., Environment: ..., ManagedBy: ..., ...additionalTags }]:
    the three standard properties are defined first, then every own
    property of [additionalTags] is copied over them; spreading
    [undefined] copies nothing. *)
Definition standardTags (environment : string) : gmap string string :=
  <["ManagedBy" := "CDK"]>
    (<["Environment" := environment]>
      (<["Application" := "VideoTranscriber"]> ∅)).

Definition getResourceTags (environment : string)
    (additionalTags : option (gmap string string)) : gmap string string :=
  match additionalTags with
  | Some extra => extra ∪ standardTags environment
  | None => standardTags environment
  end.

End Naming.

(** ** cdk/lib/config/environment-config.ts *)

Module EnvironmentConfig.
Import Js.

(** The members of [RetentionDays] (aws-cdk-lib) the profiles use. *)
Inductive RetentionDays := THREE_DAYS | ONE_WEEK | ONE_MONTH.

(** [Duration.minutes(n)]. *)
Inductive Duration := minutes (n : Z).

Inductive LogLevel := DEBUG | INFO | WARN | ERROR.
Inductive BillingMode := PAY_PER_REQUEST | PROVISIONED.
Inductive PriceClass := PriceClass_100 | PriceClass_200 | PriceClass_All.
Inductive RemovalPolicy := RETAIN | DESTROY.

Record EnvironmentConfig := {
  name : string;
  transcribeLanguage : string;
  logRetentionDays : RetentionDays;
  logLevel : LogLevel;
  enableXRay : bool;
  dynamoDBBillingMode : BillingMode;
  s3GlacierTransitionDays : option Z;
  s3ExpirationDays : option Z;
  apiThrottleRateLimit : Z;
  apiThrottleBurstLimit : Z;
  enableAPICache : bool;
  apiCacheTTL : option Duration;
  cloudFrontPriceClass : PriceClass;
  enableCloudFrontLogging : bool;
  removalPolicy : RemovalPolicy
}.

Definition devConfig : EnvironmentConfig := {|
  name := "dev";
  transcribeLanguage := "en-US";
  logRetentionDays := THREE_DAYS;
  logLevel := DEBUG;
  enableXRay := false;
  dynamoDBBillingMode := PAY_PER_REQUEST;
  s3GlacierTransitionDays := None;
  s3ExpirationDays := Some 7%Z;
  apiThrottleRateLimit := 100;
  apiThrottleBurstLimit := 200;
  enableAPICache := false;
  apiCacheTTL := None;
  cloudFrontPriceClass := PriceClass_100;
  enableCloudFrontLogging := false;
  removalPolicy := DESTROY
|}.

Definition stagingConfig : EnvironmentConfig := {|
  name := "staging";
  transcribeLanguage := "en-US";
  logRetentionDays := ONE_WEEK;
  logLevel := INFO;
  enableXRay := true;
  dynamoDBBillingMode := PAY_PER_REQUEST;
  s3GlacierTransitionDays := Some 30%Z;
  s3ExpirationDays := Some 90%Z;
  apiThrottleRateLimit := 500;
  apiThrottleBurstLimit := 1000;
  enableAPICache := true;
  apiCacheTTL := Some (minutes 5);
  cloudFrontPriceClass := PriceClass_100;
  enableCloudFrontLogging := true;
  removalPolicy := RETAIN
|}.

Definition prodConfig : EnvironmentConfig := {|
  name := "prod";
  transcribeLanguage := "en-US";
  logRetentionDays := ONE_MONTH;
  logLevel := WARN;
  enableXRay := true;
  dynamoDBBillingMode := PAY_PER_REQUEST;
  s3GlacierTransitionDays := Some 90%Z;
  s3ExpirationDays := Some 365%Z;
  apiThrottleRateLimit := 1000;
  apiThrottleBurstLimit := 2000;
  enableAPICache := true;
  apiCacheTTL := Some (minutes 10);
  cloudFrontPriceClass := PriceClass_200;
  enableCloudFrontLogging := true;
  removalPolicy := RETAIN
|}.

(** The object literal [{ dev: devConfig, staging: stagingConfig, prod: prodConfig }]. *)
Definition environments : object EnvironmentConfig :=
  [ ("dev", devConfig); ("staging", stagingConfig); ("prod", prodConfig) ].

(** What [getEnvironmentConfig] hands back: its declared return type is
    [EnvironmentConfig], but the value is whatever [environments[...]]
    held, which for a key found on the prototype chain is that inherited
    member and no profile. *)
Inductive lookedUp :=
| Profile (config : EnvironmentConfig)
| PrototypeMember (member : string).

(** [!config] holds exactly when the property read is [undefined]: the
    own values are objects and the inherited members are functions or
    objects, all truthy. *)
Definition getEnvironmentConfig (environmentName : string) : completion lookedUp :=
  match get environments (toLowerCase environmentName) with
  | Undefined =>
      Throw ("Unknown environment: " +:+ environmentName
             +:+ ". Valid environments are: " +:+ join ", " (keys environments))
  | Own config => Normal (Profile config)
  | Inherited member => Normal (PrototypeMember member)
  end.

Definition isValidEnvironment (environmentName : string) : bool :=
  has environments (toLowerCase environmentName).

End EnvironmentConfig.

(** ** cdk/lib/video-transcriber-stack.ts and cdk/bin/video-transcriber.ts *)

Module Cdk.
Import Js.

(** A value of the synthesized template: a concrete string, or a
    reference the provisioning engine resolves ([{ "Ref": name }]). *)
Inductive value := Str (s : string) | Ref (name : string).

Record Environment := {
  account : option string;
  region : option string
}.

(** The members of [cdk.StackProps] the application sets. *)
Record StackProps := {
  env : option Environment;
  description : option string;
  tags : list (string * string)
}.

Record VideoTranscriberStackProps := {
  stackProps : StackProps;
  transcribeLanguage : string;
  environment : string;
  retentionDays : option Z
}.

Record CfnOutputProps := {
  value_ : value;
  description_ : string
}.

(** A stack node of the construct tree: the attributes the base class
    [cdk.Stack] resolves, and the output nodes defined under it, in the
    order of their construction. *)
Record Stack := {
  stackId : string;
  stackName : string;
  stackRegion : value;
  stackAccount : value;
  stackDescription : option string;
  stackTags : list (string * string);
  outputs : list (string * CfnOutputProps)
}.

(** [new cdk.App()]: a root scope with no children. *)
Definition App : Type := list Stack.
Definition newApp : App := [].

Definition alreadyThere (id scopeName : string) : string :=
  "There is already a Construct with name '" +:+ id +:+ "' in " +:+ scopeName.

(** [super(scope, id, props)], the base constructor of aws-cdk-lib, for
    an id that is a stack name as it stands (a letter, then letters,
    digits and hyphens) and a description within the provider's limit:
    the construct library refuses a second child with the same id; a stack
    directly under the app is named by its id; region and account are the
    given ones, or references.  The library's own checks and rewriting of
    other ids and its refusal of longer descriptions are not part of this
    definition. *)
Definition newStack (scope : App) (id : string) (props : StackProps) : completion Stack :=
  if existsb (String.eqb id) (map stackId scope) then Throw (alreadyThere id "App")
  else
    Normal {|
      stackId := id;
      stackName := id;
      stackRegion :=
        match mbind region (env props) with
        | Some r => Str r
        | None => Ref "AWS::Region"
        end;
      stackAccount :=
        match mbind account (env props) with
        | Some a => Str a
        | None => Ref "AWS::AccountId"
        end;
      stackDescription := description props;
      stackTags := tags props;
      outputs := []
    |}.

(** [new cdk.CfnOutput(this, id, props)], with the same refusal of a
    repeated id. *)
Definition newCfnOutput (this : Stack) (id : string) (props : CfnOutputProps)
    : completion Stack :=
  if existsb (String.eqb id) (map fst (outputs this))
  then Throw (alreadyThere id (stackId this))
  else
    Normal {|
      stackId := stackId this;
      stackName := stackName this;
      stackRegion := stackRegion this;
      stackAccount := stackAccount this;
      stackDescription := stackDescription this;
      stackTags := stackTags this;
      outputs := (outputs this ++ [(id, props)])%list
    |}.

(** The constructor of [VideoTranscriberStack]: the base constructor, then
    the three outputs.  It gives back the scope with the new stack in it,
    and the stack. *)
Definition VideoTranscriberStack (scope : App) (id : string)
    (props : VideoTranscriberStackProps) : completion (App * Stack) :=
  bind (newStack scope id (stackProps props)) (λ this,
  bind (newCfnOutput this "StackName"
          {| value_ := Str (stackName this); description_ := "Stack name" |}) (λ this,
  bind (newCfnOutput this "Region"
          {| value_ := stackRegion this; description_ := "AWS Region" |}) (λ this,
  bind (newCfnOutput this "TranscribeLanguage"
          {| value_ := Str (transcribeLanguage props);
             description_ := "Transcribe language setting" |}) (λ this,
  Normal ((scope ++ [this])%list, this))))).

(** The output document of a stack, in the parts the constructor decides:
    its description and its outputs.  The sections the library's
    synthesizer adds to every template are left out. *)
Record Template := {
  Description : option string;
  Outputs : list (string * CfnOutputProps)
}.

(** [Template.fromStack(stack)]. *)
Definition fromStack (stack : Stack) : Template :=
  {| Description := stackDescription stack; Outputs := outputs stack |}.

(** The outputs manifest: the names under which the outputs are exported. *)
Definition outputKeys (t : Template) : list string := map fst (Outputs t).

(** One synthesis run in a given scope. *)
Definition synthesize (scope : App) (id : string) (props : VideoTranscriberStackProps)
    : completion Template :=
  bind (VideoTranscriberStack scope id props) (λ r, Normal (fromStack (snd r))).

(** [a || b] on an optional string: [undefined] and the empty string are
    falsy. *)
Definition orElse (a : option string) (b : string) : string :=
  match a with
  | Some s => if String.eqb s "" then b else s
  | None => b
  end.

Record ProcessEnv := {
  CDK_DEFAULT_ACCOUNT : option string;
  CDK_DEFAULT_REGION : option string
}.

(** cdk/bin/video-transcriber.ts, as a function of the CDK context and
    of the process environment, up to the template of its stack; the
    closing [app.synth()], which writes the cloud assembly, is not part of
    this definition. *)
Definition main (context : gmap string string) (process_env : ProcessEnv)
    : completion Template :=
  let app := newApp in
  let transcribeLanguage := orElse (context !! "transcribeLanguage") "zh-CN" in
  let environment := orElse (context !! "environment") "dev" in
  synthesize app "VideoTranscriberStack" {|
    stackProps := {|
      env := Some {| account := CDK_DEFAULT_ACCOUNT process_env;
                     region := Some (orElse (CDK_DEFAULT_REGION process_env) "us-east-1") |};
      description :=
        Some "Video Transcriber - Serverless video transcription and captioning solution";
      tags := [ ("Project", "VideoTranscriber"); ("Environment", environment);
                ("ManagedBy", "CDK") ]
    |};
    transcribeLanguage := transcribeLanguage;
    environment := environment;
    retentionDays := None
  |}.

End Cdk.

(** ** The contracts the specification states over this code *)

Module Contract.
Import Js Constants Naming.

(** The Naming Engine's [physicalName(kind, logicalName, environment, scope)]
    over the exported functions of naming.ts: a resource is a kind with
    its logical name, and each kind hands its function exactly the
    arguments that function takes. *)
Inductive Resource :=
| LambdaFunction (functionName : string)
| LambdaLogGroup (functionName : string)
| S3Bucket (bucketType : BucketType)
| DynamoDBTable (tableType : TableType)
| IAMRole (roleName : string)
| APIGateway.

Record Scope := {
  accountId : string;
  region : string
}.

(** A scope to try the names on. *)
Definition someScope : Scope :=
  {| accountId := "123456789012"; region := "us-east-1" |}.

Definition physicalName (r : Resource) (environment : string) (scope : Scope) : string :=
  match r with
  | LambdaFunction functionName => getLambdaFunctionName functionName
  | LambdaLogGroup functionName => getLambdaLogGroupName functionName
  | S3Bucket bucketType => getS3BucketName (accountId scope) (region scope) bucketType
  | DynamoDBTable tableType => getDynamoDBTableName environment tableType
  | IAMRole roleName => getIAMRoleName roleName
  | APIGateway => getAPIGatewayName environment
  end.

(** None of the functions of naming.ts has a [throw]: a call completes
    normally with the composed string. *)
Definition physicalNameCall (r : Resource) (environment : string) (scope : Scope)
    : completion string :=
  Normal (physicalName r environment scope).

(** The kinds whose names are global to the provider (buckets) are told
    apart by account and region, the others by environment. *)
Definition globallyScoped (r : Resource) : bool :=
  match r with
  | S3Bucket _ => true
  | _ => false
  end.

Definition scopesDiffer (r : Resource) (environment1 environment2 : string)
    (scope1 scope2 : Scope) : Prop :=
  if globallyScoped r then scope1 ≠ scope2 else environment1 ≠ environment2.

(** The specification's (d), in its words: a composed name longer than
    the kind's limit is refused with a naming error, any other is
    returned as composed. *)
Definition checkedName (limit : nat) (composed : string) : completion string :=
  if (limit <? String.length composed)%nat
  then Throw "NamingError" else Normal composed.

(** Whether a character occurs in a string. *)
Fixpoint occurs (c : ascii) (s : string) : bool :=
  match s with
  | EmptyString => false
  | String d rest => Ascii.eqb c d || occurs c rest
  end.

(** A string of [n] copies of a character. *)
Fixpoint copies (c : ascii) (n : nat) : string :=
  match n with
  | O => EmptyString
  | S m => String c (copies c m)
  end.

(** [t] ends with [s]. *)
Definition endsWith (t s : string) : bool :=
  String.eqb (substring (String.length t - String.length s) (String.length s) t) s.

(** The outputs manifest of the specification's external interfaces. *)
Definition specOutputKeys : list string :=
  [ "ApiUrl"; "DistributionUrl"; "VideoBucketName"; "AudioBucketName";
    "TranscribeBucketName"; "PublicBucketName"; "VideoTableName";
    "CaptionTableName"; "ConfigTableName" ].

(** The stack a construction yields in a scope where its id is free. *)
Definition builtStack (id : string) (props : Cdk.VideoTranscriberStackProps) : Cdk.Stack :=
  {|
    Cdk.stackId := id;
    Cdk.stackName := id;
    Cdk.stackRegion :=
      match mbind Cdk.region (Cdk.env (Cdk.stackProps props)) with
      | Some r => Cdk.Str r
      | None => Cdk.Ref "AWS::Region"
      end;
    Cdk.stackAccount :=
      match mbind Cdk.account (Cdk.env (Cdk.stackProps props)) with
      | Some a => Cdk.Str a
      | None => Cdk.Ref "AWS::AccountId"
      end;
    Cdk.stackDescription := Cdk.description (Cdk.stackProps props);
    Cdk.stackTags := Cdk.tags (Cdk.stackProps props);
    Cdk.outputs :=
      [ ("StackName", {| Cdk.value_ := Cdk.Str id; Cdk.description_ := "Stack name" |});
        ("Region",
         {| Cdk.value_ :=
              match mbind Cdk.region (Cdk.env (Cdk.stackProps props)) with
              | Some r => Cdk.Str r
              | None => Cdk.Ref "AWS::Region"
              end;
            Cdk.description_ := "AWS Region" |});
        ("TranscribeLanguage",
         {| Cdk.value_ := Cdk.Str (Cdk.transcribeLanguage props);
            Cdk.description_ := "Transcribe language setting" |}) ]
  |}.

(** The props of the repository's two stack tests. *)
Definition noStackProps : Cdk.StackProps :=
  {| Cdk.env := None; Cdk.description := None; Cdk.tags := [] |}.

Definition testProps1 : Cdk.VideoTranscriberStackProps :=
  {| Cdk.stackProps := noStackProps; Cdk.transcribeLanguage := "en-US";
     Cdk.environment := "test"; Cdk.retentionDays := None |}.

Definition testProps2 : Cdk.VideoTranscriberStackProps :=
  {| Cdk.stackProps := noStackProps; Cdk.transcribeLanguage := "zh-CN";
     Cdk.environment := "dev"; Cdk.retentionDays := None |}.

End Contract.

(** ** cdk/bin/video-transcriber.ts: the props handed to the stack *)

Module EntryPoint.
Import Cdk.

(** The object literal the entry point passes to [new VideoTranscriberStack]. *)
Definition mainProps (context : gmap string string) (process_env : ProcessEnv)
    : VideoTranscriberStackProps :=
  let transcribeLanguage := orElse (context !! "transcribeLanguage") "zh-CN" in
  let environment := orElse (context !! "environment") "dev" in
  {|
    stackProps := {|
      env := Some {| account := CDK_DEFAULT_ACCOUNT process_env;
                     region := Some (orElse (CDK_DEFAULT_REGION process_env) "us-east-1") |};
      description :=
        Some "Video Transcriber - Serverless video transcription and captioning solution";
      tags := [ ("Project", "VideoTranscriber"); ("Environment", environment);
                ("ManagedBy", "CDK") ]
    |};
    transcribeLanguage := transcribeLanguage;
    environment := environment;
    retentionDays := None
  |}.

(** The tags object of the props, as a map. *)
Definition mainTags (context : gmap string string) (process_env : ProcessEnv)
    : gmap string string :=
  list_to_map (tags (stackProps (mainProps context process_env))).

End EntryPoint.

(** ** fix-apikey.js

    The script run in the browser console, on the page's [localStorage]
    and on the markup of the two elements it looks up by id.  Its console
    output is kept as the values it reports; step 7, the network probe,
    only logs and is not part of the state. *)

Module FixApiKey.

Definition API_KEY : string := "yourtranscribetestbucketvideotranscriberv100".

(** The double quote character of the markup. *)
Definition dq : string := String (ascii_of_nat 34) EmptyString.

Definition nav : string :=
  ("<li class=" +:+ dq +:+ "nav-item" +:+ dq +:+ "><a id=" +:+ dq +:+ "homeLink" +:+ dq
     +:+ " class=" +:+ dq +:+ "nav-link" +:+ dq +:+ " href=" +:+ dq +:+ "#" +:+ dq
     +:+ ">Home</a></li>")
  +:+ ("<li class=" +:+ dq +:+ "nav-item" +:+ dq +:+ "><a id=" +:+ dq +:+ "videosLink" +:+ dq
     +:+ " class=" +:+ dq +:+ "nav-link" +:+ dq +:+ " href=" +:+ dq +:+ "#videos" +:+ dq
     +:+ ">Videos</a></li>")
  +:+ ("<li class=" +:+ dq +:+ "nav-item" +:+ dq +:+ "><a id=" +:+ dq +:+ "tweaksLink" +:+ dq
     +:+ " class=" +:+ dq +:+ "nav-link" +:+ dq +:+ " href=" +:+ dq +:+ "#tweaks" +:+ dq
     +:+ ">Tweaks</a></li>").

Definition logoutButton : string :=
  "<button type='button' class='btn btn-default' onclick='javascript:logout();'>"
  +:+ "<i class='fa fa-key'></i> Clear API Key</button>".

(** The page: the entries of [localStorage], and the markup of the two
    elements the script looks up by id, each absent when the document has
    no element of that id.  The two are taken not to lie one inside the
    other. *)
Record Page := {
  localStorage : gmap string string;
  navBar : option string;
  loginLogout : option string
}.

(** What the script reports on the console. *)
Record Report := {
  storedKey : option string;
  matched : bool;
  navBarFound : bool;
  navRendered : bool;
  apiKeyExists : bool;
  loginLogoutRendered : bool
}.

(** Truthiness of a string that may be absent. *)
Definition truthy (v : option string) : bool :=
  match v with
  | Some s => negb (String.eqb s "")
  | None => false
  end.

Definition run (page : Page) : Page * Report :=
  (* steps 1 and 2: clear(), setItem('apiKey', API_KEY) *)
  let storage : gmap string string := <["apiKey" := API_KEY]> ∅ in
  (* step 3: getItem('apiKey') and the comparison with API_KEY *)
  let stored := storage !! "apiKey" in
  let same := bool_decide (stored = Some API_KEY) in
  (* steps 4 and 5: getElementById('navBar'), rendered if found and the key is set *)
  let found := bool_decide (is_Some (navBar page)) in
  let render := found && truthy (storage !! "apiKey") in
  (* step 6: getElementById('loginLogout') *)
  let login := bool_decide (is_Some (loginLogout page)) in
  ({| localStorage := storage;
      navBar := if render then Some nav else navBar page;
      loginLogout := if login then Some logoutButton else loginLogout page |},
   {| storedKey := stored; matched := same;
      navBarFound := found; navRendered := render;
      apiKeyExists := truthy (storage !! "apiKey");
      loginLogoutRendered := login |}).

End FixApiKey.

(** * Properties *)

(** ** Facts on strings *)

Section StringFacts.

Lemma list_of_append (a b : string) :
  list_ascii_of_string (a +:+ b) = (list_ascii_of_string a ++ list_ascii_of_string b)%list.
Proof. induction a as [|c a IH]; simpl; [done | by rewrite IH]. Qed.

Lemma list_of_string_inj (a b : string) :
  list_ascii_of_string a = list_ascii_of_string b → a = b.
Proof.
  intros H. rewrite <- (string_of_list_ascii_of_string a),
    <- (string_of_list_ascii_of_string b). by rewrite H.
Qed.

Lemma length_list_of_string (a : string) :
  List.length (list_ascii_of_string a) = String.length a.
Proof. induction a as [|c a IH]; simpl; [done | by rewrite IH]. Qed.

Lemma length_append (a b : string) :
  String.length (a +:+ b) = (String.length a + String.length b)%nat.
Proof. induction a as [|c a IH]; simpl; [done | by rewrite IH]. Qed.

Lemma prefix_append (p s : string) : String.prefix p (p +:+ s) = true.
Proof.
  induction p as [|c p IH]; simpl; [by destruct s |].
  destruct (ascii_dec c c); [apply IH | done].
Qed.

Lemma prefix_cons (c : ascii) (p s : string) :
  String.prefix (String c p) (String c s) = String.prefix p s.
Proof. simpl. by destruct (ascii_dec c c). Qed.

Lemma prefix_nil (s : string) : String.prefix "" s = true.
Proof. by destruct s. Qed.

Lemma prefix_true_append (p s : string) :
  String.prefix p s = true → ∃ rest, s = p +:+ rest.
Proof.
  revert s. induction p as [|c p IH]; intros s H.
  - by exists s.
  - destruct s as [|d s]; simpl in H; [done |].
    destruct (ascii_dec c d) as [->|]; [| done].
    destruct (IH s H) as [rest ->]. by exists rest.
Qed.

(** Two strings that end differently: equal lengths of the endings force
    equal endings and equal fronts. *)
Lemma append_inv_same_length (a b s t : string) :
  a +:+ s = b +:+ t → String.length s = String.length t → a = b ∧ s = t.
Proof.
  intros H Hlen. apply (f_equal list_ascii_of_string) in H.
  rewrite !list_of_append in H.
  apply app_inj_2 in H as [Ha Hs]; [| by rewrite !length_list_of_string].
  split; by apply list_of_string_inj.
Qed.

Lemma substring_all (s : string) : substring 0 (String.length s) s = s.
Proof. induction s as [|c s IH]; simpl; [done | by rewrite IH]. Qed.

Lemma substring_skip (u s : string) (n : nat) :
  substring (String.length u) n (u +:+ s) = substring 0 n s.
Proof. induction u as [|c u IH]; simpl; [done | apply IH]. Qed.

Lemma endsWith_append (u s : string) : Contract.endsWith (u +:+ s) s = true.
Proof.
  unfold Contract.endsWith. rewrite length_append.
  replace (String.length u + String.length s - String.length s)%nat
    with (String.length u) by lia.
  rewrite substring_skip, substring_all. apply String.eqb_refl.
Qed.

Lemma append_inv_shorter (a b s t : string) :
  a +:+ s = b +:+ t → (String.length s ≤ String.length t)%nat → Contract.endsWith t s = true.
Proof.
  intros H Hlen. apply (f_equal list_ascii_of_string) in H.
  rewrite !list_of_append in H.
  apply app_eq_inv in H as [(k & Ha & Ht) | (k & Hb & Hs)].
  - rewrite <- (list_ascii_of_string_of_list_ascii k), <- list_of_append in Ht.
    apply list_of_string_inj in Ht as ->. apply endsWith_append.
  - assert (k = []) as ->.
    { apply (f_equal (@List.length ascii)) in Hs.
      rewrite length_app, !length_list_of_string in Hs.
      destruct k; [done | simpl in Hs; lia]. }
    simpl in Hs. apply list_of_string_inj in Hs as ->.
    apply (endsWith_append "" t).
Qed.

(** Splitting at a separator that neither front contains. *)
Lemma append_sep_inv (c : ascii) (a1 a2 r1 r2 : string) :
  Contract.occurs c a1 = false → Contract.occurs c a2 = false →
  a1 +:+ String c r1 = a2 +:+ String c r2 → a1 = a2 ∧ r1 = r2.
Proof.
  revert a2. induction a1 as [|d a1 IH]; intros [|e a2]; simpl; intros H1 H2 H.
  - by injection H.
  - injection H as -> _. by rewrite Ascii.eqb_refl in H2.
  - injection H as <- _. by rewrite Ascii.eqb_refl in H1.
  - injection H as -> H.
    apply orb_false_iff in H1 as [_ H1]. apply orb_false_iff in H2 as [_ H2].
    destruct (IH a2 H1 H2 H) as [-> ->]. done.
Qed.

End StringFacts.

(** ** The Naming Engine *)

Section NamingFacts.
Import Js Constants Naming Contract.

Lemma prefixed_inj (a b : string) :
  RESOURCE_PREFIX +:+ "-" +:+ a = RESOURCE_PREFIX +:+ "-" +:+ b → a = b.
Proof. intros H. by do 2 apply String.app_inj in H. Qed.

Lemma getLambdaFunctionName_inj (n1 n2 : string) :
  getLambdaFunctionName n1 = getLambdaFunctionName n2 → n1 = n2.
Proof. apply prefixed_inj. Qed.

Lemma getIAMRoleName_inj (n1 n2 : string) :
  getIAMRoleName n1 = getIAMRoleName n2 → n1 = n2.
Proof. apply prefixed_inj. Qed.

Lemma getLambdaLogGroupName_inj (n1 n2 : string) :
  getLambdaLogGroupName n1 = getLambdaLogGroupName n2 → n1 = n2.
Proof.
  unfold getLambdaLogGroupName. intros H.
  apply String.app_inj in H. by apply prefixed_inj.
Qed.

Lemma getAPIGatewayName_inj (e1 e2 : string) :
  getAPIGatewayName e1 = getAPIGatewayName e2 → e1 = e2.
Proof.
  intros H. apply prefixed_inj in H.
  by apply append_inv_same_length in H as [-> _].
Qed.

(** Two endings that cannot close the same string. *)
Ltac endings_clash H :=
  first
    [ apply append_inv_same_length in H as [_ H]; [discriminate H | reflexivity]
    | apply append_inv_shorter in H; [discriminate H | simpl; lia]
    | symmetry in H; apply append_inv_shorter in H; [discriminate H | simpl; lia] ].

Lemma getDynamoDBTableName_inj (e1 e2 : string) (t1 t2 : TableType) :
  getDynamoDBTableName e1 t1 = getDynamoDBTableName e2 t2 → e1 = e2 ∧ t1 = t2.
Proof.
  intros H. apply prefixed_inj in H.
  destruct t1, t2; simpl in H;
    first
      [ by apply append_inv_same_length in H as [-> _]
      | exfalso; endings_clash H ].
Qed.

Lemma getS3BucketName_inj (a1 a2 r1 r2 : string) (t1 t2 : BucketType) :
  occurs "-" a1 = false → occurs "-" a2 = false →
  getS3BucketName a1 r1 t1 = getS3BucketName a2 r2 t2 →
  a1 = a2 ∧ r1 = r2 ∧ t1 = t2.
Proof.
  intros Ha1 Ha2 H. apply prefixed_inj in H.
  apply (append_sep_inv "-" a1 a2 _ _ Ha1 Ha2) in H as [-> H].
  destruct t1, t2; simpl in H;
    first
      [ by apply append_inv_same_length in H as [-> _]
      | exfalso; endings_clash H ].
Qed.

End NamingFacts.

Section NamingClaims.
Import Js Constants Naming Contract.

(** C1, as stated, fails.  The Lambda function name takes no environment:
    the environments dev and prod, which differ, give the function
    extractaudio one and the same physical name.  And two different
    (account, region) pairs give a bucket the same name when the hyphen
    that joins them can be read at two places. *)
Lemma names_shared_across_scopes :
  (scopesDiffer (LambdaFunction "extractaudio") "dev" "prod" someScope someScope
   ∧ physicalName (LambdaFunction "extractaudio") "dev" someScope
     = physicalName (LambdaFunction "extractaudio") "prod" someScope)
  ∧ (scopesDiffer (S3Bucket VIDEO) "dev" "dev"
       {| accountId := "a-b"; region := "c" |} {| accountId := "a"; region := "b-c" |}
     ∧ physicalName (S3Bucket VIDEO) "dev" {| accountId := "a-b"; region := "c" |}
       = physicalName (S3Bucket VIDEO) "dev" {| accountId := "a"; region := "b-c" |}).
Proof. repeat split; simpl; discriminate. Qed.

(** C1, amended.  Table and gateway names are distinct for distinct
    environments (whatever the table types); bucket names are distinct
    for distinct (account, region) pairs whose account ids hold no hyphen
    (whatever the bucket types); the names of Lambda functions, of their
    log groups and of roles do not depend on environment or scope, and
    are distinct for distinct logical names. *)
Theorem scope_uniqueness_by_kind :
  (∀ t1 t2 e1 e2 s1 s2, e1 ≠ e2 →
     physicalName (DynamoDBTable t1) e1 s1 ≠ physicalName (DynamoDBTable t2) e2 s2)
  ∧ (∀ e1 e2 s1 s2, e1 ≠ e2 →
     physicalName APIGateway e1 s1 ≠ physicalName APIGateway e2 s2)
  ∧ (∀ t1 t2 e1 e2 s1 s2,
     occurs "-" (accountId s1) = false → occurs "-" (accountId s2) = false →
     s1 ≠ s2 →
     physicalName (S3Bucket t1) e1 s1 ≠ physicalName (S3Bucket t2) e2 s2)
  ∧ (∀ n e1 e2 s1 s2,
     physicalName (LambdaFunction n) e1 s1 = physicalName (LambdaFunction n) e2 s2
     ∧ physicalName (LambdaLogGroup n) e1 s1 = physicalName (LambdaLogGroup n) e2 s2
     ∧ physicalName (IAMRole n) e1 s1 = physicalName (IAMRole n) e2 s2)
  ∧ (∀ n1 n2 e1 e2 s1 s2, n1 ≠ n2 →
     physicalName (LambdaFunction n1) e1 s1 ≠ physicalName (LambdaFunction n2) e2 s2
     ∧ physicalName (LambdaLogGroup n1) e1 s1 ≠ physicalName (LambdaLogGroup n2) e2 s2
     ∧ physicalName (IAMRole n1) e1 s1 ≠ physicalName (IAMRole n2) e2 s2).
Proof.
  repeat apply conj.
  - intros t1 t2 e1 e2 s1 s2 Hne H. simpl in H.
    by apply getDynamoDBTableName_inj in H as [? _].
  - intros e1 e2 s1 s2 Hne H. simpl in H. by apply getAPIGatewayName_inj in H.
  - intros t1 t2 e1 e2 [a1 r1] [a2 r2] Ha1 Ha2 Hne H. simpl in *.
    apply getS3BucketName_inj in H as (-> & -> & _); done.
  - done.
  - intros n1 n2 e1 e2 s1 s2 Hne. simpl. repeat apply conj; intros H.
    + by apply getLambdaFunctionName_inj in H.
    + by apply getLambdaLogGroupName_inj in H.
    + by apply getIAMRoleName_inj in H.
Qed.

Lemma scope_uniqueness_by_kind_witness :
  physicalName (DynamoDBTable VIDEO_TABLE) "dev" someScope
    ≠ physicalName (DynamoDBTable CAPTION_TABLE) "prod" someScope
  ∧ physicalName APIGateway "dev" someScope ≠ physicalName APIGateway "staging" someScope
  ∧ physicalName (S3Bucket VIDEO) "dev" someScope
    ≠ physicalName (S3Bucket VIDEO) "dev"
        {| accountId := "123456789012"; region := "eu-west-1" |}
  ∧ physicalName (IAMRole "common") "dev" someScope
    ≠ physicalName (IAMRole "transcribe") "dev" someScope.
Proof.
  destruct scope_uniqueness_by_kind as (Htable & Hapi & Hbucket & _ & Hlogical).
  repeat apply conj.
  - apply Htable. discriminate.
  - apply Hapi. discriminate.
  - apply Hbucket; [reflexivity | reflexivity | discriminate].
  - apply (Hlogical "common" "transcribe"). discriminate.
Defined.

(** C8, as stated, fails: the name of a Lambda log group begins with the
    log path, not with the application prefix. *)
Lemma log_group_name_not_prefixed :
  String.prefix RESOURCE_PREFIX
    (physicalName (LambdaLogGroup "extractaudio") "dev" someScope) = false.
Proof. reflexivity. Qed.

(** C8, amended.  The names of Lambda functions, buckets, tables, roles
    and API gateways begin with the application prefix; the name of a
    Lambda log group is the path /aws/lambda/ followed by the function's
    name, which begins with the prefix. *)
Theorem names_carry_prefix (r : Resource) (environment : string) (scope : Scope) :
  match r with
  | LambdaLogGroup functionName =>
      physicalName r environment scope
        = "/aws/lambda/" +:+ physicalName (LambdaFunction functionName) environment scope
  | _ => String.prefix RESOURCE_PREFIX (physicalName r environment scope) = true
  end.
Proof. destruct r; first [reflexivity | apply prefix_append]. Qed.

(** A literal in front of a composed name: unfold the composition and
    compare character by character. *)
Ltac literal_prefix :=
  unfold physicalName, getLambdaLogGroupName, getLambdaFunctionName,
    getS3BucketName, getDynamoDBTableName, getIAMRoleName, getAPIGatewayName,
    RESOURCE_PREFIX;
  cbv [String.append]; fold String.append; rewrite ?prefix_cons; apply prefix_nil.

(** C10, as stated, fails.  The name of a Lambda log group built for the
    dev profile does not begin with prod-: the log path comes first. *)
Lemma dev_log_group_name_not_prod :
  Js.getOwn EnvironmentConfig.environments "dev" = Some EnvironmentConfig.devConfig
  ∧ String.prefix "prod-"
      (physicalName (LambdaLogGroup "extractaudio")
         (EnvironmentConfig.name EnvironmentConfig.devConfig) someScope) = false
  ∧ physicalName (LambdaLogGroup "extractaudio")
      (EnvironmentConfig.name EnvironmentConfig.devConfig) someScope
    = "/aws/lambda/prod-aws-captions-extractaudio".
Proof. repeat split. Qed.

(** C10, amended.  The prefix is the constant prod-aws-captions whatever
    the environment: the Lambda and table names are the literal followed
    by their other parts, every name has the literal in front (after the
    log path, for a log group), and so have the names built for each of
    the profiles dev, staging and prod: they begin with prod-, those of
    log groups with /aws/lambda/prod-. *)
Theorem prefix_same_in_every_environment :
  RESOURCE_PREFIX = "prod-aws-captions"
  ∧ (∀ n, getLambdaFunctionName n = "prod-aws-captions-" +:+ n)
  ∧ (∀ environment t,
       getDynamoDBTableName environment t
         = "prod-aws-captions-" +:+ environment +:+ "-" +:+ TABLE_NAMES t)
  ∧ (∀ r environment scope,
       String.prefix
         match r with
         | LambdaLogGroup _ => "/aws/lambda/prod-aws-captions-"
         | _ => "prod-aws-captions-"
         end
         (physicalName r environment scope) = true)
  ∧ Forall
      (λ profile, ∀ r scope,
         String.prefix
           match r with
           | LambdaLogGroup _ => "/aws/lambda/prod-"
           | _ => "prod-"
           end
           (physicalName r (EnvironmentConfig.name profile.2) scope) = true)
      EnvironmentConfig.environments.
Proof.
  repeat apply conj; try reflexivity.
  - intros r environment scope.
    destruct r; literal_prefix.
  - apply Forall_forall. intros profile _ r scope.
    destruct r; literal_prefix.
Qed.

Lemma length_copies (c : ascii) (n : nat) : String.length (copies c n) = n.
Proof. induction n as [|n IH]; simpl; [done | by rewrite IH]. Qed.

(** The length of every composed name: the 18 characters of the prefix
    and its hyphen, and the full length of each part put in. *)
Lemma length_physicalName (r : Resource) (environment : string) (scope : Scope) :
  String.length (physicalName r environment scope)
  = (18 + match r with
          | LambdaFunction n => String.length n
          | LambdaLogGroup n => 12 + String.length n
          | S3Bucket t =>
              String.length (accountId scope) + 1 + String.length (region scope) + 1
              + String.length (BUCKET_SUFFIXES t)
          | DynamoDBTable t => String.length environment + 1 + String.length (TABLE_NAMES t)
          | IAMRole n => String.length n
          | APIGateway => String.length environment + 4
          end)%nat.
Proof.
  destruct r; unfold physicalName, getLambdaLogGroupName, getLambdaFunctionName,
    getS3BucketName, getDynamoDBTableName, getIAMRoleName, getAPIGatewayName;
    rewrite ?length_append; simpl; lia.
Qed.

(** C2, as stated, fails.  With the provider's ceiling of 63 characters
    for a bucket name, an account id of thirty digits composes a name of
    64 characters: the rule of the specification refuses it, the code
    returns it. *)
Lemma overlong_bucket_name_returned :
  let scope := {| accountId := "123456789012345678901234567890"; region := "us-east-1" |} in
  let composed := physicalName (S3Bucket VIDEO) "dev" scope in
  String.length composed = 64%nat
  ∧ checkedName 63 composed = Throw "NamingError"
  ∧ physicalNameCall (S3Bucket VIDEO) "dev" scope = Normal composed
  ∧ physicalNameCall (S3Bucket VIDEO) "dev" scope ≠ checkedName 63 composed.
Proof. repeat split. discriminate. Qed.

(** C2, amended.  For every kind and every input the naming function
    returns the composed name, whole: it rejects nothing and cuts
    nothing.  It agrees with the rule of the specification exactly on the
    inputs whose composed name is within the limit, and whatever the
    limit, some input composes a longer name, which is returned. *)
Theorem names_returned_whole (r : Resource) (environment : string) (scope : Scope)
    (limit : nat) :
  physicalNameCall r environment scope = Normal (physicalName r environment scope)
  ∧ (physicalNameCall r environment scope
       = checkedName limit (physicalName r environment scope)
     ↔ (String.length (physicalName r environment scope) ≤ limit)%nat)
  ∧ String.length (physicalName r environment scope)
    = (18 + match r with
            | LambdaFunction n => String.length n
            | LambdaLogGroup n => 12 + String.length n
            | S3Bucket t =>
                String.length (accountId scope) + 1 + String.length (region scope) + 1
                + String.length (BUCKET_SUFFIXES t)
            | DynamoDBTable t =>
                String.length environment + 1 + String.length (TABLE_NAMES t)
            | IAMRole n => String.length n
            | APIGateway => String.length environment + 4
            end)%nat
  ∧ ∃ r' environment' scope',
      (limit < String.length (physicalName r' environment' scope'))%nat
      ∧ returns (physicalNameCall r' environment' scope').
Proof.
  split; [reflexivity |]. split; [| split; [apply length_physicalName |]].
  - unfold physicalNameCall, checkedName.
    destruct (Nat.ltb_spec limit (String.length (physicalName r environment scope)));
      split; intros; first [done | lia].
  - exists (LambdaFunction (copies "a" limit)), environment, scope. split.
    + rewrite length_physicalName, length_copies. lia.
    + by eexists.
Qed.

End NamingClaims.

(** ** Resource tags *)

Section TagFacts.
Import Naming.

Lemma standardTags_lookup (environment key : string) :
  standardTags environment !! key
  = if decide (key = "ManagedBy") then Some "CDK"
    else if decide (key = "Environment") then Some environment
    else if decide (key = "Application") then Some "VideoTranscriber"
    else None.
Proof.
  unfold standardTags. repeat case_decide; subst; by simplify_map_eq.
Qed.

Lemma standardTags_dom (environment : string) :
  dom (standardTags environment)
  = ({[ "Application"; "Environment"; "ManagedBy" ]} : gset string).
Proof. unfold standardTags. rewrite !dom_insert_L. set_solver. Qed.

(** C7.  The tags are the overrides laid over the three standard tags:
    a key of the overrides has the overrides' value, any other key has
    the standard value if it is one of Application, Environment and
    ManagedBy, and none otherwise; so the three standard keys are always
    there, and with no overrides (left out, or empty) the result is the
    three standard pairs. *)
Theorem resource_tags_override_wins (environment : string)
    (additionalTags : option (gmap string string)) :
  let tags := getResourceTags environment additionalTags in
  let overrides := default ∅ additionalTags in
  (∀ key, tags !! key
          = match overrides !! key with
            | Some v => Some v
            | None =>
                if decide (key = "ManagedBy") then Some "CDK"
                else if decide (key = "Environment") then Some environment
                else if decide (key = "Application") then Some "VideoTranscriber"
                else None
            end)
  ∧ dom tags = dom overrides ∪ {[ "Application"; "Environment"; "ManagedBy" ]}
  ∧ getResourceTags environment None
    = {[ "Application" := "VideoTranscriber"; "Environment" := environment;
         "ManagedBy" := "CDK" ]}
  ∧ getResourceTags environment (Some ∅) = getResourceTags environment None.
Proof.
  intros tags overrides. subst tags overrides. repeat apply conj.
  - intros key. destruct additionalTags as [extra|]; simpl.
    + rewrite lookup_union, <- standardTags_lookup.
      by destruct (extra !! key), (standardTags environment !! key).
    + rewrite lookup_empty. apply standardTags_lookup.
  - destruct additionalTags as [extra|]; simpl.
    + by rewrite dom_union_L, standardTags_dom.
    + rewrite standardTags_dom. set_solver.
  - simpl. unfold standardTags. apply map_eq. intros key.
    repeat (rewrite lookup_insert; case_decide; [done |]). done.
  - simpl. by rewrite (left_id_L ∅ (∪)).
Qed.

End TagFacts.

(** ** Environment profiles *)

Section EnvironmentFacts.
Import Js EnvironmentConfig.

Lemma lowerChar_idempotent (c : ascii) : lowerChar (lowerChar c) = lowerChar c.
Proof. destruct c as [[] [] [] [] [] [] [] []]; reflexivity. Qed.

Lemma toLowerCase_idempotent (s : string) : toLowerCase (toLowerCase s) = toLowerCase s.
Proof.
  induction s as [|c s IH]; simpl; [done |].
  by rewrite lowerChar_idempotent, IH.
Qed.


Lemma getEnvironmentConfig_lower (s : string) :
  match getEnvironmentConfig s with
  | Normal v => getEnvironmentConfig (toLowerCase s) = Normal v
  | Throw _ => throws (getEnvironmentConfig (toLowerCase s))
  end.
Proof.
  unfold getEnvironmentConfig. rewrite toLowerCase_idempotent.
  destruct (get environments (toLowerCase s)); [done | done | by eexists].
Qed.

(** A name that is, up to case, one of the keys of [environments]
    selects that key's profile. *)
Lemma getEnvironmentConfig_known (s : string) (config : EnvironmentConfig) :
  getOwn environments (toLowerCase s) = Some config →
  getEnvironmentConfig s = Normal (Profile config).
Proof. unfold getEnvironmentConfig, get. by intros ->. Qed.

(** A name that is, up to case, neither a key of [environments] nor a
    member of [Object.prototype] is refused, with the documented message. *)
Lemma getEnvironmentConfig_unknown (s : string) :
  getOwn environments (toLowerCase s) = None →
  existsb (String.eqb (toLowerCase s)) objectPrototypeKeys = false →
  getEnvironmentConfig s
  = Throw ("Unknown environment: " +:+ s
           +:+ ". Valid environments are: dev, staging, prod").
Proof. unfold getEnvironmentConfig, get. by intros -> ->. Qed.

(** C6, at the failing input.  The string constructor is not the name of
    an environment, yet the lookup finds it on the prototype chain of the
    [environments] object: the call does not throw, and hands back the
    inherited member in place of a profile. *)
Theorem inherited_name_not_refused :
  getOwn environments (toLowerCase "constructor") = None
  ∧ getEnvironmentConfig "constructor" = Normal (PrototypeMember "constructor")
  ∧ ¬ throws (getEnvironmentConfig "constructor")
  ∧ getEnvironmentConfig "__proto__" = Normal (PrototypeMember "__proto__")
  ∧ getEnvironmentConfig "dev" = Normal (Profile devConfig)
  ∧ getEnvironmentConfig "staging" = Normal (Profile stagingConfig)
  ∧ getEnvironmentConfig "prod" = Normal (Profile prodConfig)
  ∧ throws (getEnvironmentConfig "test").
Proof.
  repeat apply conj; try reflexivity.
  - intros [m H]. discriminate H.
  - by eexists.
Qed.


End EnvironmentFacts.

(** ** The stack and its synthesis *)

Section StackFacts.
Import Js Cdk Contract.

(** In a scope where the id is free the constructor returns, having
    added the stack with its three outputs. *)
Lemma VideoTranscriberStack_free (scope : App) (id : string)
    (props : VideoTranscriberStackProps) :
  existsb (String.eqb id) (map stackId scope) = false →
  VideoTranscriberStack scope id props
  = Normal ((scope ++ [builtStack id props])%list, builtStack id props).
Proof.
  intros Hfree. unfold VideoTranscriberStack, newStack. rewrite Hfree. reflexivity.
Qed.

(** An id already taken in the scope is refused, as the construct library
    does. *)
Lemma VideoTranscriberStack_taken (scope : App) (id : string)
    (props : VideoTranscriberStackProps) :
  existsb (String.eqb id) (map stackId scope) = true →
  VideoTranscriberStack scope id props = Throw (alreadyThere id "App").
Proof.
  intros Htaken. unfold VideoTranscriberStack, newStack. by rewrite Htaken.
Qed.

Lemma synthesize_free (scope : App) (id : string) (props : VideoTranscriberStackProps) :
  existsb (String.eqb id) (map stackId scope) = false →
  synthesize scope id props = Normal (fromStack (builtStack id props)).
Proof.
  intros Hfree. unfold synthesize. by rewrite VideoTranscriberStack_free.
Qed.

Lemma synthesize_returns_inv (scope : App) (id : string)
    (props : VideoTranscriberStackProps) (t : Template) :
  synthesize scope id props = Normal t → t = fromStack (builtStack id props).
Proof.
  destruct (existsb (String.eqb id) (map stackId scope)) eqn:Hid.
  - unfold synthesize. by rewrite VideoTranscriberStack_taken.
  - rewrite synthesize_free by done. by intros [= <-].
Qed.

(** C5, as stated, fails.  The synthesis of the second test succeeds, and
    its outputs are StackName, Region and TranscribeLanguage: none of
    them is a key of the specification's manifest, and ApiUrl is no
    output. *)
Lemma outputs_are_not_the_manifest :
  ∃ t, synthesize newApp "TestStack" testProps2 = Normal t
       ∧ outputKeys t = ["StackName"; "Region"; "TranscribeLanguage"]
       ∧ existsb (String.eqb "ApiUrl") (outputKeys t) = false
       ∧ forallb (λ key, negb (existsb (String.eqb key) specOutputKeys)) (outputKeys t)
         = true.
Proof. by eexists. Qed.

(** C5, amended.  Every successful synthesis has exactly the outputs
    StackName, Region and TranscribeLanguage, in this order. *)
Theorem outputs_fixed (scope : App) (id : string) (props : VideoTranscriberStackProps)
    (t : Template) :
  synthesize scope id props = Normal t →
  outputKeys t = ["StackName"; "Region"; "TranscribeLanguage"].
Proof. intros H. by rewrite (synthesize_returns_inv _ _ _ _ H). Qed.

Lemma outputs_fixed_witness :
  outputKeys (fromStack (builtStack "TestStack" testProps2))
  = ["StackName"; "Region"; "TranscribeLanguage"].
Proof.
  apply (outputs_fixed newApp "TestStack" testProps2). reflexivity.
Defined.

End StackFacts.


(** ** More on the environment lookup *)

Section EnvironmentLookup.
Import Js EnvironmentConfig.

Lemma toLowerCase_fixed (s key : string) : toLowerCase s = key → toLowerCase key = key.
Proof. intros <-. apply toLowerCase_idempotent. Qed.

(** Of the members of [Object.prototype] only two are spelled in lower
    case, so only they can be met by a lower-cased name. *)
Lemma inherited_lowered (s : string) :
  existsb (String.eqb (toLowerCase s)) objectPrototypeKeys = true
  ↔ toLowerCase s = "constructor" ∨ toLowerCase s = "__proto__".
Proof.
  split.
  - intros H. apply existsb_exists in H as (key & Hkey & Heq).
    apply String.eqb_eq in Heq. apply toLowerCase_fixed in Heq as Hfix.
    simpl in Hkey.
    repeat (destruct Hkey as [<- | Hkey];
            [first [by left | by right | vm_compute in Hfix; discriminate Hfix] |]).
    destruct Hkey.
  - intros [-> | ->]; reflexivity.
Qed.

Lemma getOwn_environments (key : string) (config : EnvironmentConfig) :
  getOwn environments key = Some config
  ↔ (key = "dev" ∧ config = devConfig)
    ∨ (key = "staging" ∧ config = stagingConfig)
    ∨ (key = "prod" ∧ config = prodConfig).
Proof.
  unfold environments. cbn -[String.eqb].
  destruct (String.eqb_spec "dev" key) as [<- | Hdev].
  { split; [intros [= <-]; auto | intros [[_ ->] | [[? _] | [? _]]]; done]. }
  destruct (String.eqb_spec "staging" key) as [<- | Hstaging].
  { split; [intros [= <-]; auto | intros [[? _] | [[_ ->] | [? _]]]; done]. }
  destruct (String.eqb_spec "prod" key) as [<- | Hprod].
  { split; [intros [= <-]; auto | intros [[? _] | [[? _] | [_ ->]]]; done]. }
  split; [intros [=] | intros [[? _] | [[? _] | [? _]]]; congruence].
Qed.

Lemma getOwn_environments_None (key : string) :
  getOwn environments key = None ↔ key ≠ "dev" ∧ key ≠ "staging" ∧ key ≠ "prod".
Proof.
  unfold environments. cbn -[String.eqb].
  destruct (String.eqb_spec "dev" key) as [<- | Hdev];
    [| destruct (String.eqb_spec "staging" key) as [<- | Hstaging];
       [| destruct (String.eqb_spec "prod" key) as [<- | Hprod] ] ];
    split; intros H; try done; try (by destruct H as (? & ? & ?)); by repeat split.
Qed.

(** X1.  The names the lookup accepts are, up to case, the three
    environments and the two lower-case members of [Object.prototype],
    and no other; [isValidEnvironment] accepts the same names. *)
Theorem lookup_accepts_five_names (s : string) :
  (returns (getEnvironmentConfig s)
   ↔ toLowerCase s ∈ ["dev"; "staging"; "prod"; "constructor"; "__proto__"])
  ∧ (isValidEnvironment s = true
     ↔ toLowerCase s ∈ ["dev"; "staging"; "prod"; "constructor"; "__proto__"]).
Proof.
  rewrite !elem_of_cons, elem_of_nil.
  unfold isValidEnvironment, getEnvironmentConfig, has, get, returns.
  destruct (getOwn environments (toLowerCase s)) as [config|] eqn:Hown.
  - apply getOwn_environments in Hown.
    split; (split; [intros _; tauto | intros _; by eauto]).
  - apply getOwn_environments_None in Hown as (Hdev & Hstaging & Hprod).
    destruct (existsb _ objectPrototypeKeys) eqn:Hinherited.
    + apply inherited_lowered in Hinherited.
      split; (split; [intros _; tauto | intros _; by eauto]).
    + assert (¬ (toLowerCase s = "constructor" ∨ toLowerCase s = "__proto__")) as Hno.
      { intros H. apply inherited_lowered in H. congruence. }
      split; (split; [by intros [? ?] || done | intros H; exfalso; tauto]).
Qed.

(** X2.  A profile that the lookup returns is named by the lower-cased
    request, and asking for it by its own name returns it again. *)
Theorem returned_profile_named_as_asked (s : string) (config : EnvironmentConfig) :
  getEnvironmentConfig s = Normal (Profile config) →
  name config = toLowerCase s
  ∧ getEnvironmentConfig (name config) = Normal (Profile config).
Proof.
  unfold getEnvironmentConfig at 1. unfold get.
  destruct (getOwn environments (toLowerCase s)) as [c|] eqn:Hown.
  - intros [= <-]. apply getOwn_environments in Hown.
    destruct Hown as [[-> ->] | [[-> ->] | [-> ->]]]; by split.
  - by destruct (existsb _ _).
Qed.

Lemma returned_profile_named_as_asked_witness :
  name prodConfig = toLowerCase "PROD"
  ∧ getEnvironmentConfig (name prodConfig) = Normal (Profile prodConfig).
Proof. apply (returned_profile_named_as_asked "PROD" prodConfig). reflexivity. Defined.

(** X3.  When the lookup throws, the message quotes the name as it was
    given, not lower-cased, and lists the three environments; and
    [isValidEnvironment] answers false for that name. *)
Theorem refusal_quotes_name_as_given (s message : string) :
  getEnvironmentConfig s = Throw message →
  message = "Unknown environment: " +:+ s
            +:+ ". Valid environments are: dev, staging, prod"
  ∧ isValidEnvironment s = false.
Proof.
  unfold getEnvironmentConfig, isValidEnvironment, has, get.
  destruct (getOwn environments (toLowerCase s)); [done |].
  destruct (existsb _ _); [done |]. by intros [= <-].
Qed.

Lemma refusal_quotes_name_as_given_witness :
  "Unknown environment: Test. Valid environments are: dev, staging, prod"
  = "Unknown environment: " +:+ "Test" +:+ ". Valid environments are: dev, staging, prod"
  ∧ isValidEnvironment "Test" = false.
Proof. apply (refusal_quotes_name_as_given "Test"). reflexivity. Defined.

(** X4.  Every profile the lookup returns is consistent in itself: a
    cache lifetime is set exactly when the cache is enabled, the burst
    limit is twice the rate limit and the rate is positive, objects
    expire, and later than they move to Glacier when they do move, the
    billing is per request, and only dev destroys its resources on
    removal. *)
Theorem returned_profile_consistent (s : string) (config : EnvironmentConfig) :
  getEnvironmentConfig s = Normal (Profile config) →
  (enableAPICache config = true ↔ is_Some (apiCacheTTL config))
  ∧ (0 < apiThrottleRateLimit config)%Z
  ∧ apiThrottleBurstLimit config = (2 * apiThrottleRateLimit config)%Z
  ∧ (∃ expiration, s3ExpirationDays config = Some expiration
       ∧ ∀ transition, s3GlacierTransitionDays config = Some transition →
                       (0 < transition < expiration)%Z)
  ∧ dynamoDBBillingMode config = PAY_PER_REQUEST
  ∧ (removalPolicy config = DESTROY ↔ name config = "dev").
Proof.
  unfold getEnvironmentConfig, get.
  destruct (getOwn environments (toLowerCase s)) as [c|] eqn:Hown;
    [| by destruct (existsb _ _)].
  intros [= <-]. apply getOwn_environments in Hown.
  destruct Hown as [[_ ->] | [[_ ->] | [_ ->]]]; simpl; split_and!;
    lazymatch goal with
    | |- _ ↔ _ => split; intros H; first [done | by eauto | by destruct H]
    | |- ∃ _, _ => eexists; split; [reflexivity |]; intros ? H; simplify_eq; lia
    | |- _ => first [done | lia]
    end.
Qed.

Lemma returned_profile_consistent_witness :
  apiThrottleBurstLimit stagingConfig = (2 * apiThrottleRateLimit stagingConfig)%Z
  ∧ (removalPolicy stagingConfig = DESTROY ↔ name stagingConfig = "dev").
Proof.
  destruct (returned_profile_consistent "Staging" stagingConfig eq_refl)
    as (_ & _ & Hburst & _ & _ & Hremoval).
  by split.
Defined.

End EnvironmentLookup.


(** ** More on the resource tags *)

Section TagMerging.
Import Naming.

Lemma getResourceTags_lookup (environment : string)
    (additionalTags : option (gmap string string)) (key : string) :
  getResourceTags environment additionalTags !! key
  = match default ∅ additionalTags !! key with
    | Some v => Some v
    | None => standardTags environment !! key
    end.
Proof.
  destruct additionalTags as [extra|]; simpl.
  - rewrite lookup_union.
    by destruct (extra !! key), (standardTags environment !! key).
  - by rewrite lookup_empty.
Qed.

Lemma standardTags_size (environment : string) : size (standardTags environment) = 3.
Proof.
  unfold standardTags.
  rewrite !map_size_insert_None, map_size_empty; by simplify_map_eq.
Qed.

Lemma standardTags_Environment (environment : string) :
  standardTags environment !! "Environment" = Some environment.
Proof. unfold standardTags. by simplify_map_eq. Qed.

(** Only the Environment tag depends on the environment. *)
Lemma standardTags_elsewhere (environment1 environment2 key : string) :
  key ≠ "Environment" →
  standardTags environment1 !! key = standardTags environment2 !! key.
Proof.
  intros Hne. rewrite !standardTags_lookup.
  destruct (decide (key = "ManagedBy")); [done |].
  by destruct (decide (key = "Environment")).
Qed.

(** X5.  Tagging what is already tagged changes nothing, and overrides
    laid on in two calls give what one call with both gives, the later
    overrides winning. *)
Theorem resource_tags_calls_merge (environment : string)
    (first : option (gmap string string)) (later : gmap string string) :
  getResourceTags environment (Some (getResourceTags environment first))
    = getResourceTags environment first
  ∧ getResourceTags environment (Some (later ∪ getResourceTags environment first))
    = getResourceTags environment (Some (later ∪ default ∅ first)).
Proof.
  split; apply map_eq; intros key;
    rewrite ?getResourceTags_lookup; simpl; rewrite ?lookup_union;
    rewrite ?getResourceTags_lookup;
    destruct (later !! key), (default ∅ first !! key),
      (standardTags environment !! key); done.
Qed.

(** X6.  The result is the overrides themselves exactly when the
    overrides set all three of Application, Environment and ManagedBy. *)
Theorem resource_tags_all_overridden (environment : string)
    (overrides : gmap string string) :
  getResourceTags environment (Some overrides) = overrides
  ↔ ({[ "Application"; "Environment"; "ManagedBy" ]} : gset string) ⊆ dom overrides.
Proof.
  rewrite <- (standardTags_dom environment). split.
  - intros H key Hkey. rewrite <- H. simpl. rewrite dom_union.
    apply elem_of_union. by right.
  - intros H. apply map_eq. intros key. rewrite getResourceTags_lookup. simpl.
    destruct (overrides !! key) eqn:Hkey; [done |].
    apply not_elem_of_dom. apply not_elem_of_dom in Hkey.
    intros Hin. apply Hkey, H, Hin.
Qed.

(** X7.  The environment given shows in the tags exactly when the
    overrides leave the Environment key alone: two environments give the
    same tags if and only if they are the same or Environment is
    overridden. *)
Theorem resource_tags_environment_shows (environment1 environment2 : string)
    (additionalTags : option (gmap string string)) :
  getResourceTags environment1 additionalTags = getResourceTags environment2 additionalTags
  ↔ environment1 = environment2 ∨ "Environment" ∈ dom (default ∅ additionalTags).
Proof.
  split.
  - intros H.
    destruct (default ∅ additionalTags !! "Environment") as [v|] eqn:Hkey.
    + right. apply elem_of_dom. by eexists.
    + left. apply (f_equal (λ m : gmap string string, m !! "Environment")) in H.
      rewrite !getResourceTags_lookup, Hkey, !standardTags_Environment in H.
      by injection H.
  - intros [-> | Hkey]; [done |]. apply elem_of_dom in Hkey as [v Hv].
    apply map_eq. intros key. rewrite !getResourceTags_lookup.
    destruct (default ∅ additionalTags !! key) eqn:Hk; [done |].
    assert (key ≠ "Environment") as Hne by (intros ->; congruence). clear Hk.
    by apply standardTags_elsewhere.
Qed.

(** X8.  There are never fewer than three tags, never fewer than the
    overrides, and never more than the overrides and three. *)
Theorem resource_tags_count (environment : string)
    (additionalTags : option (gmap string string)) :
  (3 ≤ size (getResourceTags environment additionalTags)
   ∧ size (default ∅ additionalTags) ≤ size (getResourceTags environment additionalTags)
   ∧ size (getResourceTags environment additionalTags)
     ≤ size (default ∅ additionalTags) + 3)%nat.
Proof.
  destruct additionalTags as [extra|]; simpl.
  - rewrite <- !(size_dom (D := gset string)), dom_union_L.
    rewrite <- (standardTags_size environment), <- (size_dom (D := gset string)).
    split_and!.
    + apply subseteq_size, union_subseteq_r.
    + apply subseteq_size, union_subseteq_l.
    + rewrite size_union_alt.
      assert (size (dom (standardTags environment) ∖ dom extra)
              ≤ size (dom (standardTags environment) : gset string))%nat.
      { by apply subseteq_size, subseteq_difference_l. }
      lia.
  - rewrite map_size_empty, standardTags_size. lia.
Qed.

End TagMerging.


(** ** More on the names *)

Section NamingMore.
Import Js Constants Naming Contract.

Lemma append_cons (x : ascii) (a b : string) : String x a +:+ b = String x (a +:+ b).
Proof. reflexivity. Qed.

Lemma append_assoc (a b c : string) : (a +:+ b) +:+ c = a +:+ b +:+ c.
Proof. induction a as [|x a IH]; [done | by rewrite !append_cons, IH]. Qed.

(** Fronts of equal length: equal wholes have equal fronts and equal rests. *)
Lemma append_inv_front (a b s t : string) :
  String.length a = String.length b → a +:+ s = b +:+ t → a = b ∧ s = t.
Proof.
  revert b. induction a as [|x a IH]; intros [|y b] Hlen H; try done.
  rewrite !append_cons in H. injection H as -> H. injection Hlen as Hlen.
  by destruct (IH b Hlen H) as [-> ->].
Qed.

Lemma toLowerCase_length (s : string) : String.length (toLowerCase s) = String.length s.
Proof. induction s as [|c s IH]; simpl; [done | by rewrite IH]. Qed.

Lemma toLowerCase_append (a b : string) :
  toLowerCase (a +:+ b) = toLowerCase a +:+ toLowerCase b.
Proof.
  induction a as [|c a IH]; [done |].
  rewrite append_cons. simpl. by rewrite IH, append_cons.
Qed.

(** Two endings that cannot close the same string. *)
Ltac endings_differ H :=
  first
    [ apply append_inv_same_length in H as [_ H]; [discriminate H | reflexivity]
    | apply append_inv_shorter in H; [discriminate H | simpl; lia]
    | symmetry in H; apply append_inv_shorter in H; [discriminate H | simpl; lia] ].

(** X9.  Two bucket names are the same exactly when the bucket types are
    the same and account and region, joined by a hyphen, read the same:
    the four buckets of one account and region never share a name, and
    the name tells the account from the region only through that hyphen. *)
Theorem bucket_names_equal_iff (a1 a2 r1 r2 : string) (t1 t2 : BucketType) :
  getS3BucketName a1 r1 t1 = getS3BucketName a2 r2 t2
  ↔ t1 = t2 ∧ a1 +:+ "-" +:+ r1 = a2 +:+ "-" +:+ r2.
Proof.
  unfold getS3BucketName. split.
  - intros H. apply prefixed_inj in H.
    rewrite <- !(append_assoc _ "-" (_ +:+ "-" +:+ _)) in H.
    rewrite <- !(append_assoc _ _ ("-" +:+ BUCKET_SUFFIXES _)) in H.
    rewrite !(append_assoc _ "-" _) in H.
    destruct t1, t2; simpl in H;
      first
        [ by apply append_inv_same_length in H as [? _]
        | exfalso; endings_differ H ].
  - intros [-> H]. do 2 f_equal.
    rewrite <- !(append_assoc _ "-" (_ +:+ "-" +:+ _)).
    rewrite <- !(append_assoc _ _ ("-" +:+ BUCKET_SUFFIXES _)).
    rewrite !(append_assoc _ "-" _). by rewrite H.
Qed.

(** X10.  A table name determines both the environment and the table: two
    table names are the same exactly when environment and table type are. *)
Theorem table_names_equal_iff (e1 e2 : string) (t1 t2 : TableType) :
  getDynamoDBTableName e1 t1 = getDynamoDBTableName e2 t2 ↔ e1 = e2 ∧ t1 = t2.
Proof.
  split; [apply getDynamoDBTableName_inj | by intros [-> ->]].
Qed.

(** X11.  Names of different kinds among tables, buckets and API gateways
    never coincide, whatever the environments, accounts and regions. *)
Theorem kinds_never_share_names (e1 e2 a r : string) (tt : TableType) (bt : BucketType) :
  getDynamoDBTableName e1 tt ≠ getAPIGatewayName e2
  ∧ getDynamoDBTableName e1 tt ≠ getS3BucketName a r bt
  ∧ getS3BucketName a r bt ≠ getAPIGatewayName e2.
Proof.
  unfold getDynamoDBTableName, getAPIGatewayName, getS3BucketName.
  split_and!; intros H; apply prefixed_inj in H.
  - destruct tt; simpl in H; endings_differ H.
  - rewrite <- !(append_assoc _ "-" (_ +:+ "-" +:+ _)) in H.
    rewrite <- !(append_assoc _ _ ("-" +:+ BUCKET_SUFFIXES _)) in H.
    destruct tt, bt; simpl in H; endings_differ H.
  - rewrite <- !(append_assoc _ "-" (_ +:+ "-" +:+ _)) in H.
    rewrite <- !(append_assoc _ _ ("-" +:+ BUCKET_SUFFIXES _)) in H.
    destruct bt; simpl in H; endings_differ H.
Qed.

(** X12.  The CloudFront description determines the environment, and is
    never the physical name of any resource: it does not carry the
    application prefix. *)
Theorem cloudfront_description_apart (e1 e2 : string) (r : Resource)
    (environment : string) (scope : Scope) :
  (getCloudFrontDescription e1 = getCloudFrontDescription e2 ↔ e1 = e2)
  ∧ getCloudFrontDescription e1 ≠ physicalName r environment scope
  ∧ String.prefix RESOURCE_PREFIX (getCloudFrontDescription e1) = false.
Proof.
  split_and!.
  - split; [| by intros ->]. unfold getCloudFrontDescription. intros H.
    by apply String.app_inj in H.
  - destruct r; discriminate.
  - reflexivity.
Qed.

(** X13.  A bucket name is in lower case exactly when account and region
    are: lower-casing the name is lower-casing these two parts. *)
Theorem bucket_name_lower_case (a r : string) (t : BucketType) :
  toLowerCase (getS3BucketName a r t) = getS3BucketName (toLowerCase a) (toLowerCase r) t
  ∧ (toLowerCase (getS3BucketName a r t) = getS3BucketName a r t
     ↔ toLowerCase a = a ∧ toLowerCase r = r).
Proof.
  assert (toLowerCase (getS3BucketName a r t)
          = getS3BucketName (toLowerCase a) (toLowerCase r) t) as Hlower.
  { unfold getS3BucketName. rewrite !toLowerCase_append. by destruct t. }
  split; [done |]. rewrite Hlower. split.
  - unfold getS3BucketName. intros H. apply prefixed_inj in H.
    apply append_inv_front in H as [Ha H]; [| apply toLowerCase_length].
    apply String.app_inj in H.
    apply append_inv_front in H as [Hr _]; [| apply toLowerCase_length]. done.
  - by intros [-> ->].
Qed.

End NamingMore.


(** ** More on the stack and the entry point *)

Section StackMore.
Import Js Cdk Contract EntryPoint.

Lemma main_mainProps (context : gmap string string) (process_env : ProcessEnv) :
  main context process_env
  = synthesize newApp "VideoTranscriberStack" (mainProps context process_env).
Proof. reflexivity. Qed.

(** X14.  The stack never reads the environment name and the retention
    period of its props: two props with the same stack props and the same
    transcription language synthesize alike in the same scope. *)
Theorem stack_ignores_environment_and_retention (scope : App) (id : string)
    (props1 props2 : VideoTranscriberStackProps) :
  stackProps props1 = stackProps props2 →
  transcribeLanguage props1 = transcribeLanguage props2 →
  synthesize scope id props1 = synthesize scope id props2.
Proof.
  intros Hbase Hlanguage.
  unfold synthesize, VideoTranscriberStack. rewrite Hbase.
  destruct (newStack scope id (stackProps props2)) as [this|]; [| done].
  simpl. by rewrite Hlanguage.
Qed.

Lemma stack_ignores_environment_and_retention_witness :
  synthesize newApp "TestStack" testProps1
  = synthesize newApp "TestStack"
      {| stackProps := noStackProps; transcribeLanguage := "en-US";
         environment := "prod"; retentionDays := Some 30%Z |}.
Proof. by apply stack_ignores_environment_and_retention. Defined.

(** X15.  For the entry point an empty setting is an absent one, and an
    absent one is the default: the transcription language of the context
    falls back to zh-CN and the region of the process environment to
    us-east-1. *)
Theorem entry_point_defaults (context : gmap string string) (account : option string) :
  main (<["transcribeLanguage" := ""]> context)
       {| CDK_DEFAULT_ACCOUNT := account; CDK_DEFAULT_REGION := Some "" |}
  = main (delete "transcribeLanguage" context)
         {| CDK_DEFAULT_ACCOUNT := account; CDK_DEFAULT_REGION := None |}
  ∧ main (delete "transcribeLanguage" context)
         {| CDK_DEFAULT_ACCOUNT := account; CDK_DEFAULT_REGION := None |}
    = main (<["transcribeLanguage" := "zh-CN"]> context)
           {| CDK_DEFAULT_ACCOUNT := account; CDK_DEFAULT_REGION := Some "us-east-1" |}.
Proof.
  rewrite !main_mainProps. unfold mainProps. simpl.
  rewrite !lookup_insert_eq, !lookup_delete_eq. simpl.
  rewrite !synthesize_free by done. done.
Qed.


(** X17.  The tags the entry point puts on the stack are the standard
    resource tags of the same environment with the Application key
    renamed to Project: the two sets of tags agree on Environment and
    ManagedBy and never are the same. *)
Theorem entry_point_tags_rename_application (context : gmap string string)
    (process_env : ProcessEnv) :
  let environment := orElse (context !! "environment") "dev" in
  main context process_env
    = synthesize newApp "VideoTranscriberStack" (mainProps context process_env)
  ∧ mainTags context process_env
    = <["Project" := "VideoTranscriber"]>
        (delete "Application" (Naming.getResourceTags environment None))
  ∧ mainTags context process_env ≠ Naming.getResourceTags environment None.
Proof.
  intros environment.
  assert (mainTags context process_env
          = <["Project" := "VideoTranscriber"]>
              (delete "Application" (Naming.getResourceTags environment None))) as Htags.
  { apply map_eq. intros key.
    unfold mainTags, mainProps, Naming.getResourceTags, Naming.standardTags. simpl.
    fold environment.
    destruct (decide (key = "Project")) as [-> |]; [by simplify_map_eq |].
    destruct (decide (key = "Environment")) as [-> |]; [by simplify_map_eq |].
    destruct (decide (key = "ManagedBy")) as [-> |]; [by simplify_map_eq |].
    destruct (decide (key = "Application")) as [-> |]; by simplify_map_eq. }
  split_and!; [done | done |].
  rewrite Htags. intros H.
  apply (f_equal (λ m : gmap string string, m !! "Project")) in H.
  unfold Naming.getResourceTags, Naming.standardTags in H. by simplify_map_eq.
Qed.

End StackMore.

(** ** The API key script *)

Section ScriptFacts.
Import FixApiKey.

(** X18.  Whatever the page held, after the script its [localStorage] holds
    the API key and nothing else, and the check of the stored key reports
    a match.  The navigation bar is rendered exactly when its element is
    found: the test of the stored key never holds it back, so the report
    never says that the key is missing. *)
Theorem script_storage_and_report (page : Page) :
  localStorage (run page).1 = {[ "apiKey" := API_KEY ]}
  ∧ (∀ key, key ≠ "apiKey" → localStorage (run page).1 !! key = None)
  ∧ storedKey (run page).2 = Some API_KEY
  ∧ matched (run page).2 = true
  ∧ apiKeyExists (run page).2 = true
  ∧ navRendered (run page).2 = navBarFound (run page).2
  ∧ (navRendered (run page).2 = true ↔ is_Some (navBar page))
  ∧ (loginLogoutRendered (run page).2 = true ↔ is_Some (loginLogout page)).
Proof.
  unfold run. simpl. rewrite !lookup_insert_eq. simpl.
  rewrite andb_true_r.
  split_and!; try done.
  - intros key Hkey. by rewrite lookup_insert_ne.
  - by rewrite bool_decide_eq_true.
  - by rewrite bool_decide_eq_true.
Qed.

End ScriptFacts.
